(** * PDF page to PNG converter: the cloud handler and the command-line tool

    A shallow embedding of
      - [src/backend/pdf-converter/lambda_function.py] ([lambda_handler]) and
      - [src/layers/pymupdf/convert_pdf.py] ([convert_pdf_page_to_image] and
        the [__main__] block),
    with the statements of the specification proved about it.

    The two programs are glue around three collaborators: the storage client
    (boto3), the rendering library (PyMuPDF, imported as [fitz]) and Python's
    [base64] module.  The first two are kept as oracles, fields of a record
    [World]; every call to them is logged in a trace, so that "no fetch is
    attempted" is a statement about that trace.  [base64] is a pure function
    and is written out in full below.

    Conventions.
      - A Python exception is a value [exn] (its type name and its [str]);
        a computation that may raise returns a [result].  Every exception
        is an instance of [Exception], which is what the collaborators and
        the operators of Python raise; [KeyboardInterrupt] and [SystemExit]
        are outside the model.
      - The event of the handler is any value [json.loads] can build but a
        float: [None], a [bool], an [int], a [str], a list or a dict with
        string keys.
      - A Python [str] is a [string]; a character above 127 stands for a
        non-ASCII character.  A [bytes] object is a [list byte].
      - The [float] that [dpi / 72] computes is kept as the exact rational;
        its IEEE rounding is outside the model, its overflow is not.
      - Progress lines written with [print] to standard output are not part
        of the model; the line the command-line tool writes to standard error
        is, because it is the only place where its failure is reported.
      - [json.dumps] is kept as the dict it is given, not as the text it
        produces. *)

From Stdlib Require Import ZArith NArith QArith Qround List String Ascii Lia Bool.
From Stdlib.Strings Require Import Byte.
From Stdlib.Sorting Require Import Sorted.
From stdpp Require Import base option gmap strings pretty.

Set Warnings "-register-all".

Import ListNotations.

(** ** Exceptions and results *)

(** [exn_type] is [type(e).__name__], [exn_msg] is [str(e)]. *)
Record exn : Type := Exn { exn_type : string; exn_msg : string }.

Inductive result (A : Type) : Type :=
  | Ok (a : A)
  | Raise (e : exn).
Arguments Ok {A} a.
Arguments Raise {A} e.

Definition TypeError (msg : string) : exn := Exn "TypeError" msg.
Definition ValueError (msg : string) : exn := Exn "ValueError" msg.
Definition AttributeError (msg : string) : exn := Exn "AttributeError" msg.
Definition OverflowError (msg : string) : exn := Exn "OverflowError" msg.

(** [binascii.Error]: its [__name__] is ["Error"]. *)
Definition binascii_Error (msg : string) : exn := Exn "Error" msg.

(** ** Python values, as [json.loads] builds them for an event *)

Inductive pyval : Type :=
  | PyNone
  | PyBool (b : bool)
  | PyInt (z : Z)
  | PyStr (s : string)
  | PyList (l : list pyval)
  | PyDict (d : gmap string pyval).

(** [type(v).__name__] *)
Definition type_name (v : pyval) : string :=
  match v with
  | PyNone => "NoneType"
  | PyBool _ => "bool"
  | PyInt _ => "int"
  | PyStr _ => "str"
  | PyList _ => "list"
  | PyDict _ => "dict"
  end.

(** [bool] is a subclass of [int]: [True] is 1 and [False] is 0. *)
Definition as_int (v : pyval) : option Z :=
  match v with
  | PyInt z => Some z
  | PyBool b => Some (if b then 1 else 0)%Z
  | _ => None
  end.

(** [str(z)] for an [int]. *)
Definition str_int (z : Z) : string := pretty z.

(** [format(v, '')], as an f-string does it.  The only f-string of the model
    is the message about the page number, which is built after that number
    has been compared with an [int]: it receives an [int] or a [bool].  The
    [repr] of a list or of a dict is not modelled. *)
Definition py_format (v : pyval) : string :=
  match v with
  | PyInt z => str_int z
  | PyBool true => "True"
  | PyBool false => "False"
  | PyNone => "None"
  | PyStr s => s
  | PyList _ => "[...]"
  | PyDict _ => "{...}"
  end.

(** ** [base64]: [b64encode] and [b64decode] of the Python library

    [b64encode] is [binascii.b2a_base64] without the newline, [b64decode]
    (with [validate=False], as the handler calls it) is
    [binascii.a2b_base64] in its non-strict mode, after the argument has
    been turned into bytes.  The decoder is the one of CPython 3.11 and
    later: characters outside the alphabet are skipped, a pad that
    completes a group ends the input, and an incomplete last group is an
    error. *)
Module Base64.

Definition alphabet : string :=
  "ABCDEFGHIJKLMNOPQRSTUVWXYZabcdefghijklmnopqrstuvwxyz0123456789+/".

Definition BASE64_PAD : ascii := "="%char.

Definition table_b2a_base64 (n : N) : ascii :=
  default "A"%char (String.get (N.to_nat n) alphabet).

(** The decoding table; 64 stands for every entry that is not a digit of
    the alphabet. *)
Definition table_a2b_base64 (c : ascii) : N :=
  let n := N_of_ascii c in
  if (65 <=? n)%N && (n <=? 90)%N then (n - 65)%N
  else if (97 <=? n)%N && (n <=? 122)%N then (n - 71)%N
  else if (48 <=? n)%N && (n <=? 57)%N then (n + 4)%N
  else if (n =? 43)%N then 62%N
  else if (n =? 47)%N then 63%N
  else 64%N.

(** Storing an [int] into an [unsigned char]. *)
Definition byte_of_N (n : N) : byte := default x00 (Byte.of_N (n mod 256)).

(** The four 6-bit groups of three bytes. *)
Definition sextet0 (a : N) : N := N.shiftr a 2.
Definition sextet1 (a b : N) : N := N.lor (N.shiftl (N.land a 3) 4) (N.shiftr b 4).
Definition sextet2 (b c : N) : N := N.lor (N.shiftl (N.land b 15) 2) (N.shiftr c 6).
Definition sextet3 (c : N) : N := N.land c 63.

Fixpoint b2a_base64 (data : list byte) : string :=
  match data with
  | [] => EmptyString
  | [a] =>
      let a := Byte.to_N a in
      String (table_b2a_base64 (sextet0 a))
        (String (table_b2a_base64 (sextet1 a 0))
           (String BASE64_PAD (String BASE64_PAD EmptyString)))
  | [a; b] =>
      let a := Byte.to_N a in
      let b := Byte.to_N b in
      String (table_b2a_base64 (sextet0 a))
        (String (table_b2a_base64 (sextet1 a b))
           (String (table_b2a_base64 (sextet2 b 0))
              (String BASE64_PAD EmptyString)))
  | a :: b :: c :: rest =>
      let a := Byte.to_N a in
      let b := Byte.to_N b in
      let c := Byte.to_N c in
      String (table_b2a_base64 (sextet0 a))
        (String (table_b2a_base64 (sextet1 a b))
           (String (table_b2a_base64 (sextet2 b c))
              (String (table_b2a_base64 (sextet3 c)) (b2a_base64 rest))))
  end.

(** [base64.b64encode(s).decode('utf-8')]: the digits are ASCII, so the
    text has the same characters. *)
Definition b64encode (s : list byte) : string := b2a_base64 s.

Definition emit (b : byte) (r : result (list byte)) : result (list byte) :=
  match r with
  | Ok l => Ok (b :: l)
  | Raise e => Raise e
  end.

(** The loop of [a2b_base64], non-strict mode.  [bin_len] counts the bytes
    written so far; it is only used in an error message. *)
Fixpoint a2b_base64_loop (ascii_data : string) (quad_pos leftchar pads bin_len : N)
  : result (list byte) :=
  match ascii_data with
  | EmptyString =>
      if (quad_pos =? 0)%N then Ok []
      else if (quad_pos =? 1)%N then
        Raise (binascii_Error
                 ("Invalid base64-encoded string: number of data characters ("
                  ++ pretty (bin_len / 3 * 4 + 1)%N
                  ++ ") cannot be 1 more than a multiple of 4"))
      else Raise (binascii_Error "Incorrect padding")
  | String this_ch rest =>
      if Ascii.eqb this_ch BASE64_PAD then
        if (2 <=? quad_pos)%N then
          if (4 <=? quad_pos + (pads + 1))%N then Ok []
          else a2b_base64_loop rest quad_pos leftchar (pads + 1)%N bin_len
        else a2b_base64_loop rest quad_pos leftchar pads bin_len
      else
        let v := table_a2b_base64 this_ch in
        if (64 <=? v)%N then a2b_base64_loop rest quad_pos leftchar pads bin_len
        else
          match quad_pos with
          | 0%N => a2b_base64_loop rest 1%N v 0%N bin_len
          | 1%N =>
              emit (byte_of_N (N.lor (N.shiftl leftchar 2) (N.shiftr v 4)))
                (a2b_base64_loop rest 2%N (N.land v 15) 0%N (bin_len + 1)%N)
          | 2%N =>
              emit (byte_of_N (N.lor (N.shiftl leftchar 4) (N.shiftr v 2)))
                (a2b_base64_loop rest 3%N (N.land v 3) 0%N (bin_len + 1)%N)
          | _ =>
              emit (byte_of_N (N.lor (N.shiftl leftchar 6) v))
                (a2b_base64_loop rest 0%N 0%N 0%N (bin_len + 1)%N)
          end
  end.

Definition a2b_base64 (ascii_data : string) : result (list byte) :=
  a2b_base64_loop ascii_data 0%N 0%N 0%N 0%N.

Definition is_ascii (c : ascii) : bool := (N_of_ascii c <? 128)%N.

Fixpoint all_ascii (s : string) : bool :=
  match s with
  | EmptyString => true
  | String c rest => is_ascii c && all_ascii rest
  end.

(** [base64.b64decode(s)]: a [str] must be ASCII, any other value of an
    event is not bytes-like. *)
Definition b64decode (s : pyval) : result (list byte) :=
  match s with
  | PyStr text =>
      if all_ascii text then a2b_base64 text
      else Raise (ValueError "string argument should contain only ASCII characters")
  | _ =>
      Raise (TypeError ("argument should be a bytes-like object or ASCII string, not '"
                        ++ type_name s ++ "'"))
  end.

(** *** Checks on the finite tables, for the proofs *)

(** The digit of a 6-bit group is not the pad, is ASCII, and the decoding
    table sends it back to the group. *)
Definition digit_ok (n : N) : bool :=
  (table_a2b_base64 (table_b2a_base64 n) =? n)%N
  && negb (Ascii.eqb (table_b2a_base64 n) BASE64_PAD)
  && is_ascii (table_b2a_base64 n).

(** What the decoder needs of the groups of two neighbouring bytes. *)
Definition pair_ok (a b : N) : bool :=
  (sextet0 a <? 64)%N && (sextet1 a b <? 64)%N
  && (sextet2 a b <? 64)%N && (sextet3 a <? 64)%N
  && (N.lor (N.shiftl (sextet0 a) 2) (N.shiftr (sextet1 a b) 4) =? a)%N
  && (N.land (sextet1 a b) 15 =? N.shiftr b 4)%N
  && (N.lor (N.shiftl (N.shiftr a 4) 4) (N.shiftr (sextet2 a b) 2) =? a)%N
  && (N.land (sextet2 a b) 3 =? N.shiftr b 6)%N
  && (N.lor (N.shiftl (N.shiftr a 6) 6) (sextet3 a) =? a)%N.

End Base64.


(** ** The collaborators *)

(** [fitz.Matrix(zoom_x, zoom_y)]: the scaling matrix, [a] on the x axis and
    [d] on the y axis. *)
Record Matrix : Type := mkMatrix { mat_a : Q; mat_d : Q }.

(** A [fitz.Pixmap]: [pix.width], [pix.height], [pix.tobytes(format)] and
    [pix.save(path)]. *)
Record Pixmap : Type := {
  pix_width : Z;
  pix_height : Z;
  pix_tobytes : string -> result (list byte);
  pix_save : string -> result unit
}.

(** A [fitz.Page]: [page.get_pixmap(matrix=..., alpha=...)]. *)
Record Page : Type := {
  get_pixmap : Matrix -> bool -> result Pixmap
}.

(** A [fitz.Document]: [len(doc)] and [doc[i]]. *)
Record Document : Type := {
  doc_len : nat;
  doc_getitem : Z -> result Page
}.

(** What the programs reach outside themselves:
    [s3_client.get_object(Bucket=b, Key=k)['Body'].read()],
    [fitz.open(stream=bytes, filetype="pdf")], [fitz.open(path)], and the
    builtin [int(text)] of the command line. *)
Record World : Type := {
  s3_get_object : pyval -> pyval -> result (list byte);
  fitz_open_stream : list byte -> result Document;
  fitz_open : string -> result Document;
  int_of_str : string -> result Z
}.

(** The calls a run makes to its collaborators, and what it writes to
    standard error. *)
Inductive action : Type :=
  | S3GetObject (bucket key : pyval)
  | FitzOpenStream (stream : list byte)
  | FitzOpen (path : string)
  | LoadPage (index : Z)
  | GetPixmap (mat : Matrix) (alpha : bool)
  | PixToBytes (format : string)
  | PixSave (path : string)
  | DocClose
  | StderrError (e : exn)
  | Traceback (e : exn).

Definition trace : Type := list action.

(** The place of a call in the pipeline: fetch, open, load the page,
    render, encode or save, close, report. *)
Definition stage_rank (a : action) : nat :=
  match a with
  | S3GetObject _ _ => 0
  | FitzOpenStream _ => 1
  | FitzOpen _ => 1
  | LoadPage _ => 2
  | GetPixmap _ _ => 3
  | PixToBytes _ => 4
  | PixSave _ => 4
  | DocClose => 5
  | StderrError _ => 6
  | Traceback _ => 6
  end.

(** ** A monad for code that logs its calls and may raise *)

Definition M (A : Type) : Type := trace -> result A * trace.

Definition raise {A : Type} (e : exn) : M A := fun t => (Raise e, t).

Global Instance M_ret : MRet M := fun A (a : A) t => (Ok a, t).

Global Instance M_bind : MBind M := fun A B (k : A -> M B) (m : M A) t =>
  match m t with
  | (Ok a, t') => k a t'
  | (Raise e, t') => (Raise e, t')
  end.

(** A pure computation that may raise. *)
Definition lift {A : Type} (r : result A) : M A := fun t => (r, t).

(** A call to a collaborator: logged, then its outcome. *)
Definition call {A : Type} (a : action) (r : result A) : M A :=
  fun t => (r, t ++ [a]).

(** ** Operators of Python on the values of an event *)

(** [v < n] and [v > n] for an [int] [n]. *)
Definition py_lt (v : pyval) (n : Z) : result bool :=
  match as_int v with
  | Some z => Ok (z <? n)%Z
  | None =>
      Raise (TypeError ("'<' not supported between instances of '"
                        ++ type_name v ++ "' and 'int'"))
  end.

Definition py_gt (v : pyval) (n : Z) : result bool :=
  match as_int v with
  | Some z => Ok (z >? n)%Z
  | None =>
      Raise (TypeError ("'>' not supported between instances of '"
                        ++ type_name v ++ "' and 'int'"))
  end.

(** [v - n] for an [int] [n]. *)
Definition py_sub (v : pyval) (n : Z) : result Z :=
  match as_int v with
  | Some z => Ok (z - n)%Z
  | None =>
      Raise (TypeError ("unsupported operand type(s) for -: '"
                        ++ type_name v ++ "' and 'int'"))
  end.

(** The first quotient by 72 that no longer rounds to a finite double. *)
Definition float_overflow_72 : Z := 72 * (2 ^ 1024 - 2 ^ 970).

(** [v / 72]: true division. *)
Definition py_truediv_72 (v : pyval) : result Q :=
  match as_int v with
  | Some z =>
      if (float_overflow_72 <=? Z.abs z)%Z
      then Raise (OverflowError "integer division result too large for a float")
      else Ok (z # 72)
  | None =>
      Raise (TypeError ("unsupported operand type(s) for /: '"
                        ++ type_name v ++ "' and 'int'"))
  end.

(** [v < 1 or v > len_doc], the second comparison only when the first is
    false. *)
Definition page_out_of_range (v : pyval) (len_doc : nat) : result bool :=
  match py_lt v 1 with
  | Ok true => Ok true
  | Ok false => py_gt v (Z.of_nat len_doc)
  | Raise e => Raise e
  end.

(** [event.get]: only a dict has the method. *)
Definition py_dict_get (event : pyval) : result (gmap string pyval) :=
  match event with
  | PyDict d => Ok d
  | _ =>
      Raise (AttributeError ("'" ++ type_name event
                             ++ "' object has no attribute 'get'"))
  end.

(** The message of both programs for a page outside the document. *)
Definition invalid_page_message (page_number : pyval) (len_doc : nat) : string :=
  "Invalid page number: " ++ py_format page_number
  ++ ". PDF has " ++ str_int (Z.of_nat len_doc) ++ " pages.".


(** ** [lambda_function.py] *)
Module LambdaFunction.

(** The handler's return value: ['statusCode'] and the dict that
    [json.dumps] turns into ['body'], in the order of its keys. *)
Record response : Type := {
  statusCode : Z;
  body : list (string * pyval)
}.

Definition missing_source_response : response :=
  {| statusCode := 400;
     body := [("error", PyStr "s3Bucket+s3Key or pdfBase64 is required")] |}.

Definition invalid_page_response (page_number : pyval) (len_doc : nat) : response :=
  {| statusCode := 400;
     body := [("error", PyStr (invalid_page_message page_number len_doc))] |}.

Definition success_response (image_base64 : string) (pix : Pixmap)
    (png_bytes : list byte) (page_number dpi : pyval) : response :=
  {| statusCode := 200;
     body := [("imageBase64", PyStr image_base64);
              ("width", PyInt (pix_width pix));
              ("height", PyInt (pix_height pix));
              ("size", PyInt (Z.of_nat (length png_bytes)));
              ("pageNumber", page_number);
              ("dpi", dpi)] |}.

Definition error_response (e : exn) : response :=
  {| statusCode := 500;
     body := [("error", PyStr (exn_msg e)); ("type", PyStr (exn_type e))] |}.

(** Lines 67-113: from the PDF bytes to the response. *)
Definition convert (w : World) (page_number dpi : pyval) (pdf_bytes : list byte)
  : M response :=
  doc ← call (FitzOpenStream pdf_bytes) (fitz_open_stream w pdf_bytes);
  invalid ← lift (page_out_of_range page_number (doc_len doc));
  if invalid : bool then mret (invalid_page_response page_number (doc_len doc))
  else
    index ← lift (py_sub page_number 1);
    page ← call (LoadPage index) (doc_getitem doc index);
    zoom ← lift (py_truediv_72 dpi);
    let mat := mkMatrix zoom zoom in
    pix ← call (GetPixmap mat false) (get_pixmap page mat false);
    png_bytes ← call (PixToBytes "png") (pix_tobytes pix "png");
    let image_base64 := Base64.b64encode png_bytes in
    call DocClose (Ok tt);;
    mret (success_response image_base64 pix png_bytes page_number dpi).

(** Lines 42-113: the body of the [try]. *)
Definition handler_try (w : World) (event : pyval) : M response :=
  d ← lift (py_dict_get event);
  let page_number := default (PyInt 1) (d !! "pageNumber") in
  let dpi := default (PyInt 150) (d !! "dpi") in
  match d !! "s3Bucket", d !! "s3Key" with
  | Some s3_bucket, Some s3_key =>
      pdf_bytes ← call (S3GetObject s3_bucket s3_key)
                        (s3_get_object w s3_bucket s3_key);
      convert w page_number dpi pdf_bytes
  | _, _ =>
      match d !! "pdfBase64" with
      | Some payload =>
          pdf_bytes ← lift (Base64.b64decode payload);
          convert w page_number dpi pdf_bytes
      | None => mret missing_source_response
      end
  end.

(** Lines 47-60 on their own: the outcome of reading the source the handler
    selects and the call it takes, or [None] when the event names none. *)
Definition source_of (w : World) (d : gmap string pyval)
  : option (result (list byte) * trace) :=
  match d !! "s3Bucket", d !! "s3Key" with
  | Some s3_bucket, Some s3_key =>
      Some (s3_get_object w s3_bucket s3_key, [S3GetObject s3_bucket s3_key])
  | _, _ =>
      match d !! "pdfBase64" with
      | Some payload => Some (Base64.b64decode payload, [])
      | None => None
      end
  end.

(** The values the handler works with: [event.get('pageNumber', 1)] and
    [event.get('dpi', 150)]. *)
Definition page_number_of (d : gmap string pyval) : pyval :=
  default (PyInt 1) (d !! "pageNumber").

Definition dpi_of (d : gmap string pyval) : pyval :=
  default (PyInt 150) (d !! "dpi").

(** [json.loads(response['body'])[key]], as a client reads a field. *)
Fixpoint field (key : string) (b : list (string * pyval)) : option pyval :=
  match b with
  | [] => None
  | (k, v) :: rest => if String.eqb k key then Some v else field key rest
  end.

(** [lambda_handler(event, context)]: the [try] and its [except Exception].
    The result is the response and the calls that were made. *)
Definition lambda_handler (w : World) (event : pyval) : response * trace :=
  match handler_try w event [] with
  | (Ok r, t) => (r, t)
  | (Raise e, t) => (error_response e, t)
  end.

(** *** Runs of the handler, stage by stage *)

(** Every stage of the handler succeeds on the dict [d]: the PDF it reads
    opens, the page asked for is in range and loads, the renderer gives
    [pix] and [pix] encodes as [png]; [t] is the calls made. *)
Inductive converts (w : World) (d : gmap string pyval)
  : Pixmap -> list byte -> trace -> Prop :=
  | converts_intro (pdf_bytes : list byte) (t0 : trace) (doc : Document) (p : Z)
      (page : Page) (zoom : Q) (pix : Pixmap) (png : list byte) :
      source_of w d = Some (Ok pdf_bytes, t0) ->
      fitz_open_stream w pdf_bytes = Ok doc ->
      as_int (page_number_of d) = Some p ->
      (1 <= p <= Z.of_nat (doc_len doc))%Z ->
      doc_getitem doc (p - 1) = Ok page ->
      py_truediv_72 (dpi_of d) = Ok zoom ->
      get_pixmap page (mkMatrix zoom zoom) false = Ok pix ->
      pix_tobytes pix "png" = Ok png ->
      converts w d pix png
        (t0 ++ [FitzOpenStream pdf_bytes; LoadPage (p - 1);
                GetPixmap (mkMatrix zoom zoom) false; PixToBytes "png"; DocClose]).



End LambdaFunction.

(** ** [convert_pdf.py] *)
Module ConvertPdf.

(** Lines 21-48: the body of the [try]. *)
Definition convert_try (w : World) (pdf_path : string) (page_number : Z)
    (output_path : string) (dpi : Z) : M Z :=
  doc ← call (FitzOpen pdf_path) (fitz_open w pdf_path);
  if (page_number <? 1)%Z || (page_number >? Z.of_nat (doc_len doc))%Z
  then raise (ValueError (invalid_page_message (PyInt page_number) (doc_len doc)))
  else
    page ← call (LoadPage (page_number - 1)) (doc_getitem doc (page_number - 1));
    zoom ← lift (py_truediv_72 (PyInt dpi));
    let mat := mkMatrix zoom zoom in
    pix ← call (GetPixmap mat false) (get_pixmap page mat false);
    call (PixSave output_path) (pix_save pix output_path);;
    call DocClose (Ok tt);;
    mret 0%Z.

(** [convert_pdf_page_to_image]: returns 0, or 1 after writing the
    exception to standard error. *)
Definition convert_pdf_page_to_image (w : World) (pdf_path : string)
    (page_number : Z) (output_path : string) (dpi : Z) : Z * trace :=
  match convert_try w pdf_path page_number output_path dpi [] with
  | (Ok code, t) => (code, t)
  | (Raise e, t) => (1%Z, t ++ [StderrError e])
  end.

(** [int(sys.argv[4]) if len(sys.argv) > 4 else 150], on the arguments
    after the third. *)
Definition dpi_argument (w : World) (rest : list string) : result Z :=
  match rest with
  | dpi_arg :: _ => int_of_str w dpi_arg
  | [] => Ok 150%Z
  end.

(** The [__main__] block on [sys.argv]: the exit status of the process and
    the calls made.  An exception of [int] is not caught: the interpreter
    writes the traceback and exits with status 1. *)
Definition main (w : World) (argv : list string) : Z * trace :=
  match argv with
  | _ :: pdf_path :: page_arg :: output_path :: rest =>
      match int_of_str w page_arg with
      | Raise e => (1%Z, [Traceback e])
      | Ok page_number =>
          match dpi_argument w rest with
          | Raise e => (1%Z, [Traceback e])
          | Ok dpi =>
              convert_pdf_page_to_image w pdf_path page_number output_path dpi
          end
      end
  | _ => (1%Z, [])
  end.


End ConvertPdf.

(** ** A small world, for running the programs on examples *)
Module Sample.

(** A pixmap of [wd] by [ht] pixels whose PNG encoding is [png]. *)
Definition pixmap (wd ht : Z) (png : list byte) : Pixmap :=
  {| pix_width := wd;
     pix_height := ht;
     pix_tobytes := fun _ => Ok png;
     pix_save := fun _ => Ok tt |}.

(** A page of 612 by 792 points; the pixel sizes are the scaled ones,
    rounded down. *)
Definition page (png : list byte) : Page :=
  {| get_pixmap := fun mat _ =>
       Ok (pixmap (Qfloor (612 * mat_a mat)) (Qfloor (792 * mat_d mat)) png) |}.

(** A document of [n] pages. *)
Definition document (n : nat) (png : list byte) : Document :=
  {| doc_len := n;
     doc_getitem := fun i =>
       if (0 <=? i)%Z && (i <? Z.of_nat n)%Z then Ok (page png)
       else Raise (Exn "IndexError" "page not in document") |}.

Definition png_bytes : list byte := [x89; x50; x4e; x47; x0d; x0a; x1a; x0a].

Definition pdf_bytes : list byte := [x25; x50; x44; x46].

(** Every object of the bucket and every file is the same three-page PDF;
    [int] reads a few numerals. *)
Definition world : World :=
  {| s3_get_object := fun _ _ => Ok pdf_bytes;
     fitz_open_stream := fun _ => Ok (document 3 png_bytes);
     fitz_open := fun _ => Ok (document 3 png_bytes);
     int_of_str := fun s =>
       if String.eqb s "1" then Ok 1%Z
       else if String.eqb s "2" then Ok 2%Z
       else if String.eqb s "5" then Ok 5%Z
       else if String.eqb s "300" then Ok 300%Z
       else Raise (ValueError ("invalid literal for int() with base 10: '" ++ s ++ "'")) |}.

(** The same, with a storage service that is down. *)
Definition world_no_s3 : World :=
  {| s3_get_object := fun _ _ => Raise (Exn "ClientError" "An error occurred (NoSuchKey)");
     fitz_open_stream := fitz_open_stream world;
     fitz_open := fitz_open world;
     int_of_str := int_of_str world |}.

Definition event_of (l : list (string * pyval)) : pyval := PyDict (list_to_map l).

End Sample.


(** * Facts about [base64] *)
Module Base64Facts.
Import Base64.

(** A property checked on every number below [k] holds below [k]. *)
Lemma forallb_below (P : N -> bool) (k : nat) :
  forallb P (map N.of_nat (seq 0 k)) = true ->
  forall n : N, (n < N.of_nat k)%N -> P n = true.
Proof.
  intros Hall n Hn.
  rewrite forallb_forall in Hall. apply Hall.
  apply in_map_iff. exists (N.to_nat n). split.
  - apply N2Nat.id.
  - apply in_seq. lia.
Qed.

Lemma forallb_below2 (P : N -> N -> bool) (k : nat) :
  forallb (fun a => forallb (P a) (map N.of_nat (seq 0 k)))
          (map N.of_nat (seq 0 k)) = true ->
  forall a b : N, (a < N.of_nat k)%N -> (b < N.of_nat k)%N -> P a b = true.
Proof.
  intros Hall a b Ha Hb.
  apply (forallb_below (P a) k); [|exact Hb].
  apply (forallb_below (fun a => forallb (P a) (map N.of_nat (seq 0 k))) k Hall a Ha).
Qed.

Lemma byte_bounded (b : byte) : (Byte.to_N b < N.of_nat 256)%N.
Proof. pose proof (Byte.to_N_bounded b). lia. Qed.

Lemma byte_of_to_N (b : byte) : byte_of_N (Byte.to_N b) = b.
Proof.
  unfold byte_of_N. pose proof (byte_bounded b) as Hb.
  rewrite N.mod_small by lia. now rewrite Byte.of_to_N.
Qed.

Lemma digits_ok (n : N) : (n < 64)%N -> digit_ok n = true.
Proof. apply (forallb_below digit_ok 64). vm_compute. reflexivity. Qed.

Lemma pairs_ok (a b : N) :
  (a < N.of_nat 256)%N -> (b < N.of_nat 256)%N -> pair_ok a b = true.
Proof. apply (forallb_below2 pair_ok 256). vm_compute. reflexivity. Qed.

Lemma pair_facts (a b : byte) :
  let x := Byte.to_N a in
  let y := Byte.to_N b in
  ((sextet0 x < 64 /\ sextet1 x y < 64 /\ sextet2 x y < 64 /\ sextet3 x < 64)
   /\ N.lor (N.shiftl (sextet0 x) 2) (N.shiftr (sextet1 x y) 4) = x
   /\ N.land (sextet1 x y) 15 = N.shiftr y 4
   /\ N.lor (N.shiftl (N.shiftr x 4) 4) (N.shiftr (sextet2 x y) 2) = x
   /\ N.land (sextet2 x y) 3 = N.shiftr y 6
   /\ N.lor (N.shiftl (N.shiftr x 6) 6) (sextet3 x) = x)%N.
Proof.
  intros x y.
  pose proof (pairs_ok x y (byte_bounded a) (byte_bounded b)) as H.
  unfold pair_ok in H.
  repeat (apply andb_prop in H; destruct H as [H ?]).
  repeat match goal with
         | E : (_ <? _)%N = true |- _ => apply N.ltb_lt in E
         | E : (_ =? _)%N = true |- _ => apply N.eqb_eq in E
         end.
  tauto.
Qed.

(** A byte and the byte 0 give the groups that end a message. *)
Lemma last_facts (a : byte) :
  let x := Byte.to_N a in
  (sextet1 x 0 < 64 /\ sextet2 x 0 < 64
   /\ N.lor (N.shiftl (sextet0 x) 2) (N.shiftr (sextet1 x 0) 4) = x
   /\ N.lor (N.shiftl (N.shiftr x 4) 4) (N.shiftr (sextet2 x 0) 2) = x)%N.
Proof.
  intros x. pose proof (pair_facts a x00) as H. cbv zeta in H.
  change (Byte.to_N x00) with 0%N in H. fold x in H. tauto.
Qed.

(** One turn of the loop on the digit of a group. *)
Lemma loop_digit (n : N) (rest : string) (quad_pos leftchar pads bin_len : N) :
  (n < 64)%N ->
  a2b_base64_loop (String (table_b2a_base64 n) rest) quad_pos leftchar pads bin_len =
  match quad_pos with
  | 0%N => a2b_base64_loop rest 1%N n 0%N bin_len
  | 1%N =>
      emit (byte_of_N (N.lor (N.shiftl leftchar 2) (N.shiftr n 4)))
        (a2b_base64_loop rest 2%N (N.land n 15) 0%N (bin_len + 1)%N)
  | 2%N =>
      emit (byte_of_N (N.lor (N.shiftl leftchar 4) (N.shiftr n 2)))
        (a2b_base64_loop rest 3%N (N.land n 3) 0%N (bin_len + 1)%N)
  | _ =>
      emit (byte_of_N (N.lor (N.shiftl leftchar 6) n))
        (a2b_base64_loop rest 0%N 0%N 0%N (bin_len + 1)%N)
  end.
Proof.
  intros Hn. pose proof (digits_ok n Hn) as Hd. unfold digit_ok in Hd.
  apply andb_prop in Hd. destruct Hd as [Hd _].
  apply andb_prop in Hd. destruct Hd as [Htab Hpad].
  apply N.eqb_eq in Htab. apply negb_true_iff in Hpad.
  change (a2b_base64_loop (String (table_b2a_base64 n) rest) quad_pos leftchar pads bin_len)
    with (if Ascii.eqb (table_b2a_base64 n) BASE64_PAD then
            if (2 <=? quad_pos)%N then
              if (4 <=? quad_pos + (pads + 1))%N then Ok []
              else a2b_base64_loop rest quad_pos leftchar (pads + 1)%N bin_len
            else a2b_base64_loop rest quad_pos leftchar pads bin_len
          else
            let v := table_a2b_base64 (table_b2a_base64 n) in
            if (64 <=? v)%N then a2b_base64_loop rest quad_pos leftchar pads bin_len
            else
              match quad_pos with
              | 0%N => a2b_base64_loop rest 1%N v 0%N bin_len
              | 1%N =>
                  emit (byte_of_N (N.lor (N.shiftl leftchar 2) (N.shiftr v 4)))
                    (a2b_base64_loop rest 2%N (N.land v 15) 0%N (bin_len + 1)%N)
              | 2%N =>
                  emit (byte_of_N (N.lor (N.shiftl leftchar 4) (N.shiftr v 2)))
                    (a2b_base64_loop rest 3%N (N.land v 3) 0%N (bin_len + 1)%N)
              | _ =>
                  emit (byte_of_N (N.lor (N.shiftl leftchar 6) v))
                    (a2b_base64_loop rest 0%N 0%N 0%N (bin_len + 1)%N)
              end).
  rewrite Hpad. cbv zeta. rewrite Htab.
  replace (64 <=? n)%N with false by (symmetry; apply N.leb_gt; exact Hn).
  reflexivity.
Qed.

(** A pad after two or three digits of a group. *)
Lemma loop_pad (rest : string) (quad_pos leftchar pads bin_len : N) :
  a2b_base64_loop (String BASE64_PAD rest) quad_pos leftchar pads bin_len =
  if (2 <=? quad_pos)%N then
    if (4 <=? quad_pos + (pads + 1))%N then Ok []
    else a2b_base64_loop rest quad_pos leftchar (pads + 1)%N bin_len
  else a2b_base64_loop rest quad_pos leftchar pads bin_len.
Proof. reflexivity. Qed.

(** Lists three elements at a time. *)
Lemma list_ind3 {A : Type} (P : list A -> Prop) :
  P [] -> (forall a, P [a]) -> (forall a b, P [a; b]) ->
  (forall a b c l, P l -> P (a :: b :: c :: l)) ->
  forall l, P l.
Proof.
  intros H0 H1 H2 H3 l.
  assert (P l /\ (forall a, P (a :: l)) /\ (forall a b, P (a :: b :: l))) as [H _].
  { induction l as [|x l [IH0 [IH1 IH2]]].
    - auto.
    - repeat split; auto. }
  exact H.
Qed.

(** Four digits give back the three bytes they were made of. *)
Lemma loop_group (a b c : byte) (rest : string) (leftchar bin_len : N) :
  a2b_base64_loop
    (String (table_b2a_base64 (sextet0 (Byte.to_N a)))
       (String (table_b2a_base64 (sextet1 (Byte.to_N a) (Byte.to_N b)))
          (String (table_b2a_base64 (sextet2 (Byte.to_N b) (Byte.to_N c)))
             (String (table_b2a_base64 (sextet3 (Byte.to_N c))) rest))))
    0%N leftchar 0%N bin_len =
  emit a (emit b (emit c (a2b_base64_loop rest 0%N 0%N 0%N (bin_len + 1 + 1 + 1)%N))).
Proof.
  destruct (pair_facts a b) as [[Ha0 [Hab1 _]] [Ea [Eab _]]].
  destruct (pair_facts b c) as [[_ [_ [Hbc2 _]]] [_ [_ [Eb [Ebc _]]]]].
  destruct (pair_facts c c) as [[_ [_ [_ Hc3]]] [_ [_ [_ [_ Ec]]]]].
  cbv zeta in *.
  rewrite (loop_digit _ _ 0%N) by assumption.
  rewrite (loop_digit _ _ 1%N) by assumption.
  rewrite Ea, byte_of_to_N.
  rewrite (loop_digit _ _ 2%N) by assumption.
  rewrite Eab, Eb, byte_of_to_N.
  rewrite (loop_digit _ _ 3%N) by assumption.
  rewrite Ebc, Ec, byte_of_to_N.
  reflexivity.
Qed.

(** The loop reads an encoded message back, wherever the count starts. *)
Lemma loop_b2a (data : list byte) :
  forall leftchar bin_len : N,
    a2b_base64_loop (b2a_base64 data) 0%N leftchar 0%N bin_len = Ok data.
Proof.
  induction data as [|a|a b|a b c rest IH] using list_ind3; intros leftchar bin_len.
  - reflexivity.
  - destruct (pair_facts a a) as [[Ha0 _] _].
    destruct (last_facts a) as [Ha1 [_ [Ea _]]].
    cbv zeta in *. cbn [b2a_base64].
    rewrite (loop_digit _ _ 0%N) by assumption.
    rewrite (loop_digit _ _ 1%N) by assumption.
    rewrite Ea, byte_of_to_N.
    rewrite !loop_pad. reflexivity.
  - destruct (pair_facts a b) as [[Ha0 [Hab1 _]] [Ea [Eab _]]].
    destruct (last_facts b) as [_ [Hb2 [_ Eb]]].
    cbv zeta in *. cbn [b2a_base64].
    rewrite (loop_digit _ _ 0%N) by assumption.
    rewrite (loop_digit _ _ 1%N) by assumption.
    rewrite Ea, byte_of_to_N.
    rewrite (loop_digit _ _ 2%N) by assumption.
    rewrite Eab, Eb, byte_of_to_N.
    rewrite loop_pad. reflexivity.
  - cbn [b2a_base64]. rewrite loop_group, IH. reflexivity.
Qed.

Lemma b2a_all_ascii (data : list byte) : all_ascii (b2a_base64 data) = true.
Proof.
  assert (Hdigit : forall n, (n < 64)%N -> is_ascii (table_b2a_base64 n) = true).
  { intros n Hn. pose proof (digits_ok n Hn) as Hd. unfold digit_ok in Hd.
    apply andb_prop in Hd. tauto. }
  induction data as [|a|a b|a b c rest IH] using list_ind3.
  - reflexivity.
  - destruct (pair_facts a a) as [[Ha0 _] _].
    destruct (last_facts a) as [Ha1 _].
    cbv zeta in *. cbn [b2a_base64 all_ascii].
    rewrite !Hdigit by assumption. reflexivity.
  - destruct (pair_facts a b) as [[Ha0 [Hab1 _]] _].
    destruct (last_facts b) as [_ [Hb2 _]].
    cbv zeta in *. cbn [b2a_base64 all_ascii].
    rewrite !Hdigit by assumption. reflexivity.
  - destruct (pair_facts a b) as [[Ha0 [Hab1 _]] _].
    destruct (pair_facts b c) as [[_ [_ [Hbc2 _]]] _].
    destruct (pair_facts c c) as [[_ [_ [_ Hc3]]] _].
    cbv zeta in *. cbn [b2a_base64 all_ascii].
    rewrite !Hdigit by assumption. rewrite IH. reflexivity.
Qed.

(** Decoding what [b64encode] wrote gives the bytes back. *)
Lemma b64decode_b64encode (data : list byte) :
  b64decode (PyStr (b64encode data)) = Ok data.
Proof.
  unfold b64decode, b64encode, a2b_base64.
  rewrite b2a_all_ascii. apply loop_b2a.
Qed.

End Base64Facts.


(** * The cloud handler *)
Module LambdaFacts.
Import LambdaFunction.

Ltac unfold_M :=
  unfold mbind, M_bind, mret, M_ret, lift, call, raise in *.

(** Case analysis on every stage of a run, the first one first. *)
Ltac destruct_stages :=
  repeat (cbv zeta;
          match goal with
          | |- context [match ?x with _ => _ end] =>
              lazymatch x with
              | context [match _ with _ => _ end] => fail
              | _ => destruct x
              end
          end).

(** On a dict the handler reads the source it selects, then converts. *)
Lemma handler_try_dict (w : World) (d : gmap string pyval) :
  handler_try w (PyDict d) [] =
  match source_of w d with
  | Some (Ok pdf_bytes, t0) => convert w (page_number_of d) (dpi_of d) pdf_bytes t0
  | Some (Raise e, t0) => (Raise e, t0)
  | None => (Ok missing_source_response, [])
  end.
Proof.
  unfold handler_try, source_of, page_number_of, dpi_of. unfold_M. simpl.
  destruct (d !! "s3Bucket") as [b|]; destruct (d !! "s3Key") as [k|];
    try reflexivity;
    destruct (d !! "pdfBase64") as [payload|]; reflexivity.
Qed.

(** [convert] stage by stage, with the calls made at each outcome. *)
Lemma convert_eq (w : World) (page_number dpi : pyval) (pdf_bytes : list byte)
    (t : trace) :
  convert w page_number dpi pdf_bytes t =
  match fitz_open_stream w pdf_bytes with
  | Raise e => (Raise e, t ++ [FitzOpenStream pdf_bytes])
  | Ok doc =>
    match page_out_of_range page_number (doc_len doc) with
    | Raise e => (Raise e, t ++ [FitzOpenStream pdf_bytes])
    | Ok true =>
        (Ok (invalid_page_response page_number (doc_len doc)),
         t ++ [FitzOpenStream pdf_bytes])
    | Ok false =>
      match py_sub page_number 1 with
      | Raise e => (Raise e, t ++ [FitzOpenStream pdf_bytes])
      | Ok index =>
        match doc_getitem doc index with
        | Raise e => (Raise e, t ++ [FitzOpenStream pdf_bytes; LoadPage index])
        | Ok page =>
          match py_truediv_72 dpi with
          | Raise e => (Raise e, t ++ [FitzOpenStream pdf_bytes; LoadPage index])
          | Ok zoom =>
            let mat := mkMatrix zoom zoom in
            match get_pixmap page mat false with
            | Raise e =>
                (Raise e,
                 t ++ [FitzOpenStream pdf_bytes; LoadPage index; GetPixmap mat false])
            | Ok pix =>
              match pix_tobytes pix "png" with
              | Raise e =>
                  (Raise e,
                   t ++ [FitzOpenStream pdf_bytes; LoadPage index;
                         GetPixmap mat false; PixToBytes "png"])
              | Ok png_bytes =>
                  (Ok (success_response (Base64.b64encode png_bytes) pix
                         png_bytes page_number dpi),
                   t ++ [FitzOpenStream pdf_bytes; LoadPage index;
                         GetPixmap mat false; PixToBytes "png"; DocClose])
              end
            end
          end
        end
      end
    end
  end.
Proof.
  unfold convert. unfold_M.
  destruct (fitz_open_stream w pdf_bytes) as [doc|e]; [|reflexivity].
  destruct (page_out_of_range page_number (doc_len doc)) as [[|]|e]; try reflexivity.
  destruct (py_sub page_number 1) as [index|e]; [|reflexivity].
  destruct (doc_getitem doc index) as [page|e]; [|now rewrite <- List.app_assoc].
  destruct (py_truediv_72 dpi) as [zoom|e]; [|now rewrite <- List.app_assoc].
  cbv zeta.
  destruct (get_pixmap page (mkMatrix zoom zoom) false) as [pix|e];
    [|now rewrite <- !List.app_assoc].
  destruct (pix_tobytes pix "png") as [png_bytes|e]; now rewrite <- !List.app_assoc.
Qed.


(** The calls of reading a source: at most one, a storage fetch. *)
Lemma source_of_trace (w : World) (d : gmap string pyval)
    (r : result (list byte)) (t0 : trace) :
  source_of w d = Some (r, t0) ->
  t0 = [] \/ exists b k, d !! "s3Bucket" = Some b /\ d !! "s3Key" = Some k
                         /\ r = s3_get_object w b k /\ t0 = [S3GetObject b k].
Proof.
  unfold source_of.
  destruct (d !! "s3Bucket") as [b|] eqn:Hb; destruct (d !! "s3Key") as [k|] eqn:Hk;
    try (destruct (d !! "pdfBase64"); intros [=]; subst; now left).
  intros [=]; subst. right. exists b, k. auto.
Qed.





End LambdaFacts.

(** * The command-line tool *)
Module ConvertPdfFacts.
Import ConvertPdf.
Import LambdaFacts.

(** [convert_try] stage by stage, with the calls made at each outcome. *)
Lemma convert_try_eq (w : World) (pdf_path : string) (page_number : Z)
    (output_path : string) (dpi : Z) (t : trace) :
  convert_try w pdf_path page_number output_path dpi t =
  match fitz_open w pdf_path with
  | Raise e => (Raise e, t ++ [FitzOpen pdf_path])
  | Ok doc =>
    if (page_number <? 1)%Z || (page_number >? Z.of_nat (doc_len doc))%Z
    then (Raise (ValueError (invalid_page_message (PyInt page_number) (doc_len doc))),
          t ++ [FitzOpen pdf_path])
    else
      let index := (page_number - 1)%Z in
      match doc_getitem doc index with
      | Raise e => (Raise e, t ++ [FitzOpen pdf_path; LoadPage index])
      | Ok page =>
        match py_truediv_72 (PyInt dpi) with
        | Raise e => (Raise e, t ++ [FitzOpen pdf_path; LoadPage index])
        | Ok zoom =>
          let mat := mkMatrix zoom zoom in
          match get_pixmap page mat false with
          | Raise e =>
              (Raise e, t ++ [FitzOpen pdf_path; LoadPage index; GetPixmap mat false])
          | Ok pix =>
            match pix_save pix output_path with
            | Raise e =>
                (Raise e,
                 t ++ [FitzOpen pdf_path; LoadPage index; GetPixmap mat false;
                       PixSave output_path])
            | Ok _ =>
                (Ok 0%Z,
                 t ++ [FitzOpen pdf_path; LoadPage index; GetPixmap mat false;
                       PixSave output_path; DocClose])
            end
          end
        end
      end
  end.
Proof.
  unfold convert_try. unfold_M.
  destruct (fitz_open w pdf_path) as [doc|e]; [|reflexivity].
  destruct ((page_number <? 1)%Z || (page_number >? Z.of_nat (doc_len doc))%Z);
    [reflexivity|].
  cbv zeta.
  destruct (doc_getitem doc (page_number - 1)) as [page|e];
    [|now rewrite <- List.app_assoc].
  destruct (py_truediv_72 (PyInt dpi)) as [zoom|e]; [|now rewrite <- List.app_assoc].
  destruct (get_pixmap page (mkMatrix zoom zoom) false) as [pix|e];
    [|now rewrite <- !List.app_assoc].
  destruct (pix_save pix output_path) as [u|e]; now rewrite <- !List.app_assoc.
Qed.

End ConvertPdfFacts.

(** * The statements of the specification *)

Import LambdaFunction ConvertPdf LambdaFacts ConvertPdfFacts.



(** C2.  A request with no complete storage location (no [s3Bucket] or no
    [s3Key]) and no [pdfBase64] gets the status 400 answer that says which
    fields are required, and no call at all has been made: no storage
    fetch, no PDF opened, nothing rendered. *)
Theorem missing_source_rejected (w : World) (d : gmap string pyval) :
  d !! "s3Bucket" = None \/ d !! "s3Key" = None ->
  d !! "pdfBase64" = None ->
  lambda_handler w (PyDict d) =
    ({| statusCode := 400;
        body := [("error", PyStr "s3Bucket+s3Key or pdfBase64 is required")] |},
     []).
Proof.
  intros Hs3 Hb64. unfold lambda_handler.
  rewrite handler_try_dict. unfold source_of. rewrite Hb64.
  destruct Hs3 as [-> | Hk].
  - reflexivity.
  - rewrite Hk. destruct (d !! "s3Bucket"); reflexivity.
Qed.

(** A request that only names a page gets that answer. *)
Lemma missing_source_rejected_witness :
  lambda_handler Sample.world (Sample.event_of [("pageNumber", PyInt 1)]) =
    ({| statusCode := 400;
        body := [("error", PyStr "s3Bucket+s3Key or pdfBase64 is required")] |},
     []).
Proof.
  apply (missing_source_rejected Sample.world (list_to_map [("pageNumber", PyInt 1)])).
  - left. reflexivity.
  - reflexivity.
Defined.

Lemma page_out_of_range_false (v : pyval) (n : nat) :
  page_out_of_range v n = Ok false ->
  exists p, as_int v = Some p /\ (1 <= p <= Z.of_nat n)%Z.
Proof.
  unfold page_out_of_range, py_lt, py_gt.
  destruct (as_int v) as [p|]; [|discriminate].
  destruct (p <? 1)%Z eqn:Hlt; [discriminate|].
  intros [= Hgt]. exists p. split; [reflexivity|].
  apply Z.ltb_ge in Hlt. rewrite Z.gtb_ltb in Hgt. apply Z.ltb_ge in Hgt. lia.
Qed.

(** A status 200 answer comes from a run in which every stage succeeded. *)
Lemma success_inv (w : World) (event : pyval) (r : response) (t : trace) :
  lambda_handler w event = (r, t) ->
  statusCode r = 200%Z ->
  exists d pix png,
    event = PyDict d /\ converts w d pix png t
    /\ r = success_response (Base64.b64encode png) pix png (page_number_of d) (dpi_of d).
Proof.
  unfold lambda_handler.
  destruct event as [| | | | |d];
    try (cbn; intros [= <- <-]; discriminate).
  rewrite handler_try_dict.
  destruct (source_of w d) as [[[pdf_bytes|e] t0]|] eqn:Hsrc;
    [|intros [= <- <-]; discriminate|intros [= <- <-]; discriminate].
  rewrite convert_eq.
  destruct (fitz_open_stream w pdf_bytes) as [doc|e] eqn:Hopen;
    [|intros [= <- <-]; discriminate].
  destruct (page_out_of_range (page_number_of d) (doc_len doc)) as [[|]|e] eqn:Hrange;
    [intros [= <- <-]; discriminate| |intros [= <- <-]; discriminate].
  destruct (page_out_of_range_false _ _ Hrange) as (p & Hp & Hbounds).
  unfold py_sub. rewrite Hp.
  destruct (doc_getitem doc (p - 1)) as [page|e] eqn:Hpage;
    [|intros [= <- <-]; discriminate].
  destruct (py_truediv_72 (dpi_of d)) as [zoom|e] eqn:Hzoom;
    [|intros [= <- <-]; discriminate].
  cbv zeta.
  destruct (get_pixmap page (mkMatrix zoom zoom) false) as [pix|e] eqn:Hpix;
    [|intros [= <- <-]; discriminate].
  destruct (pix_tobytes pix "png") as [png|e] eqn:Hpng;
    [|intros [= <- <-]; discriminate].
  intros [= <- <-] _. exists d, pix, png.
  split; [reflexivity|]. split; [|reflexivity].
  econstructor; eassumption.
Qed.

(** C3.  In a status 200 answer, [size] is the length of the PNG bytes the
    renderer produced and decoding [imageBase64] gives exactly those
    bytes. *)
Theorem success_size_and_image (w : World) (event : pyval) (r : response) (t : trace) :
  lambda_handler w event = (r, t) ->
  statusCode r = 200%Z ->
  exists (d : gmap string pyval) (pix : Pixmap) (png : list byte),
    event = PyDict d /\ converts w d pix png t
    /\ field "size" (body r) = Some (PyInt (Z.of_nat (length png)))
    /\ exists image : string,
         field "imageBase64" (body r) = Some (PyStr image)
         /\ Base64.b64decode (PyStr image) = Ok png.
Proof.
  intros Hrun Hstatus.
  destruct (success_inv w event r t Hrun Hstatus) as (d & pix & png & Hev & Hconv & ->).
  exists d, pix, png. split; [exact Hev|]. split; [exact Hconv|].
  split; [reflexivity|].
  exists (Base64.b64encode png). split; [reflexivity|].
  apply Base64Facts.b64decode_b64encode.
Qed.

(** The first page of an embedded PDF at the default resolution. *)
Lemma success_size_and_image_witness :
  exists (d : gmap string pyval) (pix : Pixmap) (png : list byte),
    Sample.event_of [("pdfBase64", PyStr "JVBERg==")] = PyDict d
    /\ converts Sample.world d pix png
         [FitzOpenStream Sample.pdf_bytes; LoadPage 0;
          GetPixmap (mkMatrix (150 # 72) (150 # 72)) false; PixToBytes "png"; DocClose]
    /\ field "size"
         (body (fst (lambda_handler Sample.world
                       (Sample.event_of [("pdfBase64", PyStr "JVBERg==")])))) =
       Some (PyInt (Z.of_nat (length png)))
    /\ exists image : string,
         field "imageBase64"
           (body (fst (lambda_handler Sample.world
                         (Sample.event_of [("pdfBase64", PyStr "JVBERg==")])))) =
         Some (PyStr image)
         /\ Base64.b64decode (PyStr image) = Ok png.
Proof.
  apply (success_size_and_image Sample.world
           (Sample.event_of [("pdfBase64", PyStr "JVBERg==")])).
  - vm_compute. reflexivity.
  - reflexivity.
Defined.

Lemma py_truediv_72_ok (v : pyval) (zoom : Q) :
  py_truediv_72 v = Ok zoom ->
  exists z : Z, as_int v = Some z /\ zoom = z # 72 /\ (Z.abs z < float_overflow_72)%Z.
Proof.
  unfold py_truediv_72. destruct (as_int v) as [z|]; [|discriminate].
  destruct (float_overflow_72 <=? Z.abs z)%Z eqn:Hov; [discriminate|].
  intros [= <-]. exists z. apply Z.leb_gt in Hov. auto.
Qed.





(** Writing a field the handler does not select a source by leaves the
    source as it was. *)
Lemma source_of_insert (w : World) (d : gmap string pyval) (key : string) (v : pyval) :
  key <> "s3Bucket" -> key <> "s3Key" -> key <> "pdfBase64" ->
  source_of w (<[key := v]> d) = source_of w d.
Proof.
  intros H1 H2 H3. unfold source_of.
  rewrite !lookup_insert_ne by assumption. reflexivity.
Qed.

(** C5.  Without [pageNumber] the handler does what it does for page 1,
    without [dpi] what it does for 150 dpi; a status 200 answer carries the
    page number and the dpi the handler worked with, defaults included.
    The command-line tool without its fourth argument converts at 150
    dpi. *)
Theorem defaults_and_echo (w : World) (d : gmap string pyval) :
  (d !! "pageNumber" = None ->
     page_number_of d = PyInt 1
     /\ lambda_handler w (PyDict d) =
        lambda_handler w (PyDict (<["pageNumber" := PyInt 1]> d)))
  /\ (d !! "dpi" = None ->
        dpi_of d = PyInt 150
        /\ lambda_handler w (PyDict d) =
           lambda_handler w (PyDict (<["dpi" := PyInt 150]> d)))
  /\ (forall (r : response) (t : trace),
        lambda_handler w (PyDict d) = (r, t) ->
        statusCode r = 200%Z ->
        field "pageNumber" (body r) = Some (page_number_of d)
        /\ field "dpi" (body r) = Some (dpi_of d))
  /\ (forall (script pdf_path page_arg output_path : string) (page_number : Z),
        int_of_str w page_arg = Ok page_number ->
        main w [script; pdf_path; page_arg; output_path] =
        convert_pdf_page_to_image w pdf_path page_number output_path 150).
Proof.
  split; [|split; [|split]].
  - intros Habsent. split.
    + unfold page_number_of. rewrite Habsent. reflexivity.
    + unfold lambda_handler. rewrite !handler_try_dict.
      rewrite source_of_insert by discriminate.
      unfold page_number_of, dpi_of.
      rewrite lookup_insert_eq, lookup_insert_ne by discriminate.
      rewrite Habsent. reflexivity.
  - intros Habsent. split.
    + unfold dpi_of. rewrite Habsent. reflexivity.
    + unfold lambda_handler. rewrite !handler_try_dict.
      rewrite source_of_insert by discriminate.
      unfold page_number_of, dpi_of.
      rewrite lookup_insert_eq, lookup_insert_ne by discriminate.
      rewrite Habsent. reflexivity.
  - intros r t Hrun Hstatus.
    destruct (success_inv w _ r t Hrun Hstatus) as (d' & pix & png & [= <-] & _ & ->).
    split; reflexivity.
  - intros script pdf_path page_arg output_path page_number Hint.
    unfold main. rewrite Hint. reflexivity.
Qed.

(** A request that only carries the PDF is answered for page 1 at 150 dpi,
    and the answer says so. *)
Lemma defaults_and_echo_witness :
  lambda_handler Sample.world (Sample.event_of [("pdfBase64", PyStr "JVBERg==")]) =
  lambda_handler Sample.world
    (Sample.event_of [("pageNumber", PyInt 1); ("pdfBase64", PyStr "JVBERg==")])
  /\ lambda_handler Sample.world (Sample.event_of [("pdfBase64", PyStr "JVBERg==")]) =
     lambda_handler Sample.world
       (Sample.event_of [("dpi", PyInt 150); ("pdfBase64", PyStr "JVBERg==")])
  /\ field "pageNumber"
       (body (fst (lambda_handler Sample.world
                     (Sample.event_of [("pdfBase64", PyStr "JVBERg==")])))) =
     Some (PyInt 1)
  /\ field "dpi"
       (body (fst (lambda_handler Sample.world
                     (Sample.event_of [("pdfBase64", PyStr "JVBERg==")])))) =
     Some (PyInt 150)
  /\ main Sample.world ["convert_pdf.py"; "in.pdf"; "2"; "out.png"] =
     convert_pdf_page_to_image Sample.world "in.pdf" 2 "out.png" 150.
Proof.
  destruct (defaults_and_echo Sample.world (list_to_map [("pdfBase64", PyStr "JVBERg==")]))
    as (Hpage & Hdpi & Hecho & Hcli).
  split; [apply Hpage; reflexivity|].
  split; [apply Hdpi; reflexivity|].
  destruct (Hecho _ _ eq_refl eq_refl) as [Hp Hd].
  split; [exact Hp|]. split; [exact Hd|].
  apply Hcli. reflexivity.
Defined.



















(** C10.  An event with only one of [s3Bucket] and [s3Key] is handled as
    the event without it: no storage fetch is made, and without [pdfBase64]
    the answer is the status 400 one for a missing source. *)
Theorem partial_location_ignored (w : World) (d : gmap string pyval) :
  d !! "s3Bucket" = None \/ d !! "s3Key" = None ->
  lambda_handler w (PyDict d) =
    lambda_handler w (PyDict (delete "s3Bucket" (delete "s3Key" d)))
  /\ (forall b k : pyval, ~ In (S3GetObject b k) (snd (lambda_handler w (PyDict d))))
  /\ (d !! "pdfBase64" = None ->
      lambda_handler w (PyDict d) =
        ({| statusCode := 400;
            body := [("error", PyStr "s3Bucket+s3Key or pdfBase64 is required")] |},
         [])).
Proof.
  intros Hpartial.
  assert (Hsrc : source_of w d =
                 match d !! "pdfBase64" with
                 | Some payload => Some (Base64.b64decode payload, [])
                 | None => None
                 end).
  { unfold source_of. destruct Hpartial as [-> | ->]; [reflexivity|].
    destruct (d !! "s3Bucket"); reflexivity. }
  split; [|split].
  - unfold lambda_handler. rewrite !handler_try_dict, Hsrc.
    unfold source_of, page_number_of, dpi_of.
    rewrite lookup_delete_eq.
    rewrite !(lookup_delete_ne _ "s3Bucket") by discriminate.
    rewrite !(lookup_delete_ne _ "s3Key") by discriminate.
    reflexivity.
  - intros b k. unfold lambda_handler. rewrite handler_try_dict, Hsrc.
    destruct (d !! "pdfBase64") as [payload|]; [|cbn; tauto].
    destruct (Base64.b64decode payload) as [pdf_bytes|e]; [|cbn; tauto].
    rewrite convert_eq. destruct_stages; cbn; intuition discriminate.
  - intros Hb64. unfold lambda_handler.
    rewrite handler_try_dict, Hsrc, Hb64. reflexivity.
Qed.

(** Only a bucket, and a payload: the payload is converted and the bucket
    is never asked. *)
Lemma partial_location_ignored_witness :
  lambda_handler Sample.world_no_s3
    (Sample.event_of [("s3Bucket", PyStr "bucket"); ("pdfBase64", PyStr "JVBERg==")]) =
  lambda_handler Sample.world_no_s3 (Sample.event_of [("pdfBase64", PyStr "JVBERg==")])
  /\ lambda_handler Sample.world_no_s3 (Sample.event_of [("s3Key", PyStr "in.pdf")]) =
     ({| statusCode := 400;
         body := [("error", PyStr "s3Bucket+s3Key or pdfBase64 is required")] |},
      []).
Proof.
  split.
  - destruct (partial_location_ignored Sample.world_no_s3
                (list_to_map [("s3Bucket", PyStr "bucket");
                              ("pdfBase64", PyStr "JVBERg==")])) as [Heq _].
    + right. reflexivity.
    + etransitivity; [exact Heq|]. vm_compute. reflexivity.
  - destruct (partial_location_ignored Sample.world_no_s3
                (list_to_map [("s3Key", PyStr "in.pdf")])) as (_ & _ & Hmissing).
    + left. reflexivity.
    + apply Hmissing. reflexivity.
Defined.

(** * Further properties of the cloud handler *)

(** What [convert] does once the PDF has opened and the page number is an
    integer in range. *)
Lemma convert_in_range (w : World) (page_number dpi : pyval) (pdf_bytes : list byte)
    (t : trace) (doc : Document) (p : Z) :
  fitz_open_stream w pdf_bytes = Ok doc ->
  as_int page_number = Some p ->
  (1 <= p <= Z.of_nat (doc_len doc))%Z ->
  convert w page_number dpi pdf_bytes t =
  match doc_getitem doc (p - 1) with
  | Raise e => (Raise e, t ++ [FitzOpenStream pdf_bytes; LoadPage (p - 1)])
  | Ok page =>
    match py_truediv_72 dpi with
    | Raise e => (Raise e, t ++ [FitzOpenStream pdf_bytes; LoadPage (p - 1)])
    | Ok zoom =>
      match get_pixmap page (mkMatrix zoom zoom) false with
      | Raise e =>
          (Raise e,
           t ++ [FitzOpenStream pdf_bytes; LoadPage (p - 1);
                 GetPixmap (mkMatrix zoom zoom) false])
      | Ok pix =>
        match pix_tobytes pix "png" with
        | Raise e =>
            (Raise e,
             t ++ [FitzOpenStream pdf_bytes; LoadPage (p - 1);
                   GetPixmap (mkMatrix zoom zoom) false; PixToBytes "png"])
        | Ok png_bytes =>
            (Ok (success_response (Base64.b64encode png_bytes) pix png_bytes
                   page_number dpi),
             t ++ [FitzOpenStream pdf_bytes; LoadPage (p - 1);
                   GetPixmap (mkMatrix zoom zoom) false; PixToBytes "png"; DocClose])
        end
      end
    end
  end.
Proof.
  intros Hopen Hp Hrange. rewrite convert_eq, Hopen.
  assert (Hcheck : page_out_of_range page_number (doc_len doc) = Ok false).
  { unfold page_out_of_range, py_lt, py_gt. rewrite Hp.
    replace (p <? 1)%Z with false by (symmetry; apply Z.ltb_ge; lia).
    f_equal. rewrite Z.gtb_ltb. apply Z.ltb_ge. lia. }
  rewrite Hcheck. unfold py_sub. rewrite Hp. reflexivity.
Qed.

(** X1.  An event that is not a dict (a list, a string, a number, [null])
    has no [get]: the handler answers with status 500 and the
    [AttributeError], and makes no call. *)
Theorem event_not_a_dict (w : World) (event : pyval) :
  (forall d : gmap string pyval, event <> PyDict d) ->
  lambda_handler w event =
    ({| statusCode := 500;
        body := [("error", PyStr ("'" +:+ type_name event
                                  +:+ "' object has no attribute 'get'"));
                 ("type", PyStr "AttributeError")] |},
     []).
Proof.
  intros Hnot. destruct event as [| | | | |d]; try reflexivity.
  exfalso. exact (Hnot d eq_refl).
Qed.

(** A JSON array as the event. *)
Lemma event_not_a_dict_witness :
  lambda_handler Sample.world (PyList [PyInt 1]) =
    ({| statusCode := 500;
        body := [("error", PyStr "'list' object has no attribute 'get'");
                 ("type", PyStr "AttributeError")] |},
     []).
Proof.
  apply (event_not_a_dict Sample.world (PyList [PyInt 1])).
  intros d Heq. discriminate Heq.
Defined.



(** X3.  The handler does not check the sign of [dpi]: for any integer
    [dpi], zero and negative ones included, a page in range is handed to the
    renderer with the zoom [dpi / 72]. *)
Theorem dpi_not_validated (w : World) (d : gmap string pyval)
    (pdf_bytes : list byte) (t0 : trace) (doc : Document) (p : Z) (page : Page)
    (dpi : Z) :
  source_of w d = Some (Ok pdf_bytes, t0) ->
  fitz_open_stream w pdf_bytes = Ok doc ->
  as_int (page_number_of d) = Some p ->
  (1 <= p <= Z.of_nat (doc_len doc))%Z ->
  doc_getitem doc (p - 1) = Ok page ->
  as_int (dpi_of d) = Some dpi ->
  (Z.abs dpi < float_overflow_72)%Z ->
  In (GetPixmap (mkMatrix (dpi # 72) (dpi # 72)) false)
     (snd (lambda_handler w (PyDict d))).
Proof.
  intros Hsrc Hopen Hp Hrange Hpage Hdpi Hfinite. unfold lambda_handler.
  rewrite handler_try_dict, Hsrc.
  rewrite (convert_in_range w _ _ _ _ doc p Hopen Hp Hrange), Hpage.
  unfold py_truediv_72. rewrite Hdpi.
  replace (float_overflow_72 <=? Z.abs dpi)%Z with false
    by (symmetry; apply Z.leb_gt; exact Hfinite).
  destruct (get_pixmap page (mkMatrix (dpi # 72) (dpi # 72)) false) as [pix|e];
    [destruct (pix_tobytes pix "png") as [png|e]|];
    cbn [snd]; apply in_or_app; right; simpl; tauto.
Qed.

(** At -72 dpi the renderer is asked for the zoom -1. *)
Lemma dpi_not_validated_witness :
  In (GetPixmap (mkMatrix (-72 # 72) (-72 # 72)) false)
     (snd (lambda_handler Sample.world
             (Sample.event_of [("pdfBase64", PyStr "JVBERg=="); ("dpi", PyInt (-72))]))).
Proof.
  apply (dpi_not_validated Sample.world
           (list_to_map [("pdfBase64", PyStr "JVBERg=="); ("dpi", PyInt (-72))])
           Sample.pdf_bytes [] (Sample.document 3 Sample.png_bytes) 1
           (Sample.page Sample.png_bytes) (-72));
    try reflexivity.
  cbn. lia.
Defined.



(** X5.  When every stage succeeds the answer is the status 200 one, with
    the base64 text of the PNG bytes, the width and the height of the
    pixmap, the number of PNG bytes, and the page number and dpi the handler
    worked with; the calls made are the ones of the run. *)
Theorem converts_answer (w : World) (d : gmap string pyval) (pix : Pixmap)
    (png : list byte) (t : trace) :
  converts w d pix png t ->
  lambda_handler w (PyDict d) =
    ({| statusCode := 200;
        body := [("imageBase64", PyStr (Base64.b64encode png));
                 ("width", PyInt (pix_width pix));
                 ("height", PyInt (pix_height pix));
                 ("size", PyInt (Z.of_nat (length png)));
                 ("pageNumber", page_number_of d);
                 ("dpi", dpi_of d)] |},
     t).
Proof.
  intros Hconv.
  destruct Hconv as [pdf_bytes t0 doc p page zoom pix png
                       Hsrc Hopen Hp Hrange Hpage Hzoom Hpix Hpng].
  unfold lambda_handler. rewrite handler_try_dict, Hsrc.
  rewrite (convert_in_range w _ _ _ _ doc p Hopen Hp Hrange).
  rewrite Hpage, Hzoom, Hpix, Hpng. reflexivity.
Qed.

(** Page 2 of the sample document at 300 dpi. *)
Lemma converts_answer_witness :
  lambda_handler Sample.world
    (Sample.event_of [("pdfBase64", PyStr "JVBERg=="); ("pageNumber", PyInt 2);
                      ("dpi", PyInt 300)]) =
    ({| statusCode := 200;
        body := [("imageBase64", PyStr "iVBORw0KGgo=");
                 ("width", PyInt 2550);
                 ("height", PyInt 3300);
                 ("size", PyInt 8);
                 ("pageNumber", PyInt 2);
                 ("dpi", PyInt 300)] |},
     [FitzOpenStream Sample.pdf_bytes; LoadPage 1;
      GetPixmap (mkMatrix (300 # 72) (300 # 72)) false; PixToBytes "png"; DocClose]).
Proof.
  assert (Hconv : converts Sample.world
            (list_to_map [("pdfBase64", PyStr "JVBERg=="); ("pageNumber", PyInt 2);
                          ("dpi", PyInt 300)])
            (Sample.pixmap 2550 3300 Sample.png_bytes) Sample.png_bytes
            [FitzOpenStream Sample.pdf_bytes; LoadPage 1;
             GetPixmap (mkMatrix (300 # 72) (300 # 72)) false; PixToBytes "png";
             DocClose]).
  { apply (converts_intro Sample.world _ Sample.pdf_bytes []
             (Sample.document 3 Sample.png_bytes) 2 (Sample.page Sample.png_bytes)
             (300 # 72));
      try reflexivity.
    cbn. lia. }
  exact (converts_answer Sample.world _ _ _ _ Hconv).
Defined.

(** Case analysis on every stage of a run, reducing as it goes. *)
Ltac case_stages :=
  repeat (cbv beta iota zeta;
          match goal with
          | |- context [match ?x with _ => _ end] =>
              lazymatch x with
              | context [match _ with _ => _ end] => fail
              | _ => destruct x
              end
          end).

(** On an event that is not a dict the [try] ends at [event.get]. *)
Lemma handler_try_not_dict (w : World) (event : pyval) :
  (forall d : gmap string pyval, event <> PyDict d) ->
  handler_try w event [] =
  (Raise (AttributeError ("'" +:+ type_name event +:+ "' object has no attribute 'get'")),
   []).
Proof.
  intros Hnot. destruct event as [| | | | |d]; try reflexivity.
  exfalso. exact (Hnot d eq_refl).
Qed.

Ltac not_a_dict :=
  rewrite handler_try_not_dict by (intros ?; discriminate); cbn.

(** X6.  The handler closes the document exactly in the runs that end
    with status 200: after a refused page number or an exception the
    document that was opened is left open. *)
Theorem close_iff_success (w : World) (event : pyval) :
  In DocClose (snd (lambda_handler w event)) <->
  statusCode (fst (lambda_handler w event)) = 200%Z.
Proof.
  unfold lambda_handler.
  destruct event as [| | | | |d]; try (not_a_dict; solve [intuition congruence]).
  rewrite handler_try_dict.
  destruct (source_of w d) as [[[pdf_bytes|e] t0]|] eqn:Hsrc;
    [|destruct (source_of_trace w d _ _ Hsrc) as [->|(b & k & _ & _ & _ & ->)];
      cbn; intuition congruence
     |cbn; intuition congruence].
  rewrite convert_eq.
  destruct (source_of_trace w d _ _ Hsrc) as [->|(b & k & _ & _ & _ & ->)];
    case_stages; cbn; intuition congruence.
Qed.

(** X7.  The command-line function closes the document exactly when it
    returns 0. *)
Theorem cli_close_iff_success (w : World) (pdf_path : string) (page_number : Z)
    (output_path : string) (dpi : Z) :
  In DocClose (snd (convert_pdf_page_to_image w pdf_path page_number output_path dpi))
  <-> fst (convert_pdf_page_to_image w pdf_path page_number output_path dpi) = 0%Z.
Proof.
  unfold convert_pdf_page_to_image. rewrite convert_try_eq.
  case_stages; cbn; intuition congruence.
Qed.

(** X8.  The document is only ever indexed inside its bounds: a page
    loaded by the handler or by the command-line function has the index
    [page number - 1], at least 0 and below the page count. *)
Theorem page_index_in_bounds :
  (forall (w : World) (event : pyval) (i : Z),
      In (LoadPage i) (snd (lambda_handler w event)) ->
      exists (d : gmap string pyval) (pdf_bytes : list byte) (t0 : trace)
             (doc : Document),
        event = PyDict d
        /\ source_of w d = Some (Ok pdf_bytes, t0)
        /\ fitz_open_stream w pdf_bytes = Ok doc
        /\ as_int (page_number_of d) = Some (i + 1)%Z
        /\ (0 <= i < Z.of_nat (doc_len doc))%Z)
  /\ (forall (w : World) (pdf_path : string) (page_number : Z) (output_path : string)
             (dpi : Z) (i : Z),
        In (LoadPage i)
           (snd (convert_pdf_page_to_image w pdf_path page_number output_path dpi)) ->
        exists doc : Document,
          fitz_open w pdf_path = Ok doc
          /\ i = (page_number - 1)%Z
          /\ (0 <= i < Z.of_nat (doc_len doc))%Z).
Proof.
  split.
  - intros w event i. unfold lambda_handler.
    destruct event as [| | | | |d]; try (not_a_dict; intros []).
    rewrite handler_try_dict.
    destruct (source_of w d) as [[[pdf_bytes|e] t0]|] eqn:Hsrc;
      [|destruct (source_of_trace w d _ _ Hsrc) as [->|(b & k & _ & _ & _ & ->)];
        cbn; intuition congruence
       |cbn; intros []].
    rewrite convert_eq.
    destruct (fitz_open_stream w pdf_bytes) as [doc|e] eqn:Hopen.
    2: { destruct (source_of_trace w d _ _ Hsrc) as [->|(b & k & _ & _ & _ & ->)];
           cbn; intuition congruence. }
    destruct (page_out_of_range (page_number_of d) (doc_len doc)) as [[|]|e] eqn:Hrange.
    1, 3: destruct (source_of_trace w d _ _ Hsrc) as [->|(b & k & _ & _ & _ & ->)];
            cbn; intuition congruence.
    destruct (page_out_of_range_false _ _ Hrange) as (p & Hp & Hbounds).
    unfold py_sub. rewrite Hp. intros Hin.
    assert (Hi : i = (p - 1)%Z).
    { revert Hin.
      destruct (source_of_trace w d _ _ Hsrc) as [->|(b & k & _ & _ & _ & ->)];
        case_stages; cbn; intuition congruence. }
    exists d, pdf_bytes, t0, doc. subst i.
    replace (p - 1 + 1)%Z with p by lia.
    repeat split; auto; lia.
  - intros w pdf_path page_number output_path dpi i.
    unfold convert_pdf_page_to_image. rewrite convert_try_eq.
    destruct (fitz_open w pdf_path) as [doc|e] eqn:Hopen; [|cbn; intuition congruence].
    destruct ((page_number <? 1)%Z || (page_number >? Z.of_nat (doc_len doc))%Z)
      eqn:Hrange; [cbn; intuition congruence|].
    apply orb_false_iff in Hrange. destruct Hrange as [Hlt Hgt].
    apply Z.ltb_ge in Hlt. rewrite Z.gtb_ltb in Hgt. apply Z.ltb_ge in Hgt.
    intros Hin.
    assert (Hi : i = (page_number - 1)%Z).
    { revert Hin. case_stages; cbn; intuition congruence. }
    exists doc. repeat split; auto; lia.
Qed.



(** X10.  The handler reads five keys of the event and no other: adding or
    changing any other key changes neither the answer nor the calls. *)
Theorem other_keys_ignored (w : World) (d : gmap string pyval) (key : string)
    (v : pyval) :
  key <> "s3Bucket" -> key <> "s3Key" -> key <> "pdfBase64" ->
  key <> "pageNumber" -> key <> "dpi" ->
  lambda_handler w (PyDict (<[key := v]> d)) = lambda_handler w (PyDict d).
Proof.
  intros H1 H2 H3 H4 H5. unfold lambda_handler.
  rewrite !handler_try_dict, source_of_insert by assumption.
  unfold page_number_of, dpi_of.
  rewrite !lookup_insert_ne by assumption. reflexivity.
Qed.

(** An [outputFormat] field makes no difference. *)
Lemma other_keys_ignored_witness :
  lambda_handler Sample.world
    (Sample.event_of [("outputFormat", PyStr "jpeg"); ("pdfBase64", PyStr "JVBERg==")]) =
  lambda_handler Sample.world (Sample.event_of [("pdfBase64", PyStr "JVBERg==")]).
Proof.
  apply (other_keys_ignored Sample.world
           (list_to_map [("pdfBase64", PyStr "JVBERg==")]) "outputFormat"
           (PyStr "jpeg"));
    discriminate.
Defined.

(** X11.  The keys of the body follow from the status: the six fields of a
    conversion for 200, [error] alone for 400, [error] and [type] for
    500. *)
Theorem body_keys (w : World) (event : pyval) :
  let r := fst (lambda_handler w event) in
  statusCode r = 200%Z
  /\ map fst (body r) = ["imageBase64"; "width"; "height"; "size"; "pageNumber"; "dpi"]
  \/ statusCode r = 400%Z /\ map fst (body r) = ["error"]
  \/ statusCode r = 500%Z /\ map fst (body r) = ["error"; "type"].
Proof.
  cbv zeta. unfold lambda_handler.
  destruct event as [| | | | |d]; try (not_a_dict; solve [tauto]).
  rewrite handler_try_dict.
  destruct (source_of w d) as [[[pdf_bytes|e] t0]|]; [|cbn; tauto|cbn; tauto].
  rewrite convert_eq. case_stages; cbn; tauto.
Qed.



(** X13.  The calls of a run of the handler come in the order of the
    pipeline and each kind at most once: fetch, open, load the page, render,
    encode, close.  Nothing is retried. *)
Theorem handler_calls_in_order (w : World) (event : pyval) :
  StronglySorted lt (map stage_rank (snd (lambda_handler w event))).
Proof.
  unfold lambda_handler.
  destruct event as [| | | | |d]; try (not_a_dict; solve [constructor]).
  rewrite handler_try_dict.
  destruct (source_of w d) as [[[pdf_bytes|e] t0]|] eqn:Hsrc;
    [|destruct (source_of_trace w d _ _ Hsrc) as [->|(b & k & _ & _ & _ & ->)];
      cbn; repeat constructor
     |cbn; constructor].
  rewrite convert_eq.
  destruct (source_of_trace w d _ _ Hsrc) as [->|(b & k & _ & _ & _ & ->)];
    case_stages; cbn; repeat constructor.
Qed.

(** ** The payload and the image text *)

Lemma append_cons (c : ascii) (s1 s2 : string) :
  String c s1 +:+ s2 = String c (s1 +:+ s2).
Proof. reflexivity. Qed.

(** A character that is neither a digit of the alphabet nor the pad is
    skipped by the decoder, wherever it stands. *)
Lemma a2b_base64_loop_skip (c : ascii) (s2 : string) :
  Ascii.eqb c Base64.BASE64_PAD = false ->
  Base64.table_a2b_base64 c = 64%N ->
  forall (s1 : string) (quad_pos leftchar pads bin_len : N),
    Base64.a2b_base64_loop (s1 +:+ String c s2) quad_pos leftchar pads bin_len =
    Base64.a2b_base64_loop (s1 +:+ s2) quad_pos leftchar pads bin_len.
Proof.
  intros Hpad Htab s1.
  induction s1 as [|x s1 IH]; intros quad_pos leftchar pads bin_len.
  - change (EmptyString +:+ String c s2) with (String c s2).
    change (EmptyString +:+ s2) with s2.
    cbn [Base64.a2b_base64_loop]. rewrite Hpad. cbv zeta. rewrite Htab. reflexivity.
  - rewrite !append_cons. cbn [Base64.a2b_base64_loop]. cbv zeta.
    rewrite !IH. reflexivity.
Qed.

Lemma all_ascii_skip (c : ascii) (s1 s2 : string) :
  Base64.is_ascii c = true ->
  Base64.all_ascii (s1 +:+ String c s2) = Base64.all_ascii (s1 +:+ s2).
Proof.
  intros Hc. induction s1 as [|x s1 IH].
  - change (EmptyString +:+ String c s2) with (String c s2).
    change (EmptyString +:+ s2) with s2.
    cbn [Base64.all_ascii]. rewrite Hc. reflexivity.
  - rewrite !append_cons. cbn [Base64.all_ascii]. rewrite IH. reflexivity.
Qed.

Lemma b64decode_skip (c : ascii) (s1 s2 : string) :
  Base64.is_ascii c = true ->
  c <> Base64.BASE64_PAD ->
  Base64.table_a2b_base64 c = 64%N ->
  Base64.b64decode (PyStr (s1 +:+ String c s2)) = Base64.b64decode (PyStr (s1 +:+ s2)).
Proof.
  intros Hascii Hpad Htab. unfold Base64.b64decode, Base64.a2b_base64.
  rewrite all_ascii_skip by assumption.
  rewrite a2b_base64_loop_skip; [reflexivity| |assumption].
  apply Ascii.eqb_neq. exact Hpad.
Qed.

(** X14.  The payload is decoded leniently: an ASCII character that is
    not of the base64 alphabet and not the pad (a line break, a space, a
    dash) can stand anywhere in [pdfBase64] without changing the answer or
    the calls. *)
Theorem payload_junk_skipped (w : World) (d : gmap string pyval) (c : ascii)
    (s1 s2 : string) :
  d !! "s3Bucket" = None \/ d !! "s3Key" = None ->
  d !! "pdfBase64" = Some (PyStr (s1 +:+ String c s2)) ->
  Base64.is_ascii c = true ->
  c <> Base64.BASE64_PAD ->
  Base64.table_a2b_base64 c = 64%N ->
  lambda_handler w (PyDict d) =
  lambda_handler w (PyDict (<["pdfBase64" := PyStr (s1 +:+ s2)]> d)).
Proof.
  intros Hs3 Hpayload Hascii Hpad Htab.
  assert (Hsrc : source_of w d = Some (Base64.b64decode (PyStr (s1 +:+ s2)), [])).
  { unfold source_of. rewrite Hpayload, (b64decode_skip c s1 s2) by assumption.
    destruct Hs3 as [-> | ->]; [reflexivity|].
    destruct (d !! "s3Bucket"); reflexivity. }
  assert (Hsrc' : source_of w (<["pdfBase64" := PyStr (s1 +:+ s2)]> d) =
                  Some (Base64.b64decode (PyStr (s1 +:+ s2)), [])).
  { unfold source_of. rewrite lookup_insert_eq.
    rewrite !lookup_insert_ne by discriminate.
    destruct Hs3 as [-> | ->]; [reflexivity|].
    destruct (d !! "s3Bucket"); reflexivity. }
  unfold lambda_handler. rewrite !handler_try_dict, Hsrc, Hsrc'.
  unfold page_number_of, dpi_of. rewrite !lookup_insert_ne by discriminate.
  reflexivity.
Qed.

(** A line break in the middle of the payload. *)
Lemma payload_junk_skipped_witness :
  lambda_handler Sample.world
    (Sample.event_of [("pdfBase64", PyStr ("JVBE" +:+ String "010"%char "Rg=="))]) =
  lambda_handler Sample.world
    (PyDict (<["pdfBase64" := PyStr ("JVBE" +:+ "Rg==")]>
               (list_to_map [("pdfBase64",
                              PyStr ("JVBE" +:+ String "010"%char "Rg=="))]))).
Proof.
  apply (payload_junk_skipped Sample.world
           (list_to_map [("pdfBase64", PyStr ("JVBE" +:+ String "010"%char "Rg=="))])
           "010"%char "JVBE" "Rg==").
  - left. reflexivity.
  - reflexivity.
  - reflexivity.
  - discriminate.
  - reflexivity.
Defined.

Lemma b2a_base64_length (data : list byte) :
  String.length (Base64.b2a_base64 data) = 4 * ((length data + 2) / 3).
Proof.
  induction data as [|a|a b|a b c rest IH] using Base64Facts.list_ind3.
  - reflexivity.
  - reflexivity.
  - reflexivity.
  - cbn [Base64.b2a_base64 String.length length]. rewrite IH.
    replace (S (S (S (length rest))) + 2) with (1 * 3 + (length rest + 2)) by lia.
    rewrite Nat.div_add_l by discriminate. lia.
Qed.

(** X15.  In a status 200 answer [imageBase64] is ASCII text of exactly
    [4 * ceil(size / 3)] characters, [size] being the number it reports. *)
Theorem image_text_length (w : World) (event : pyval) (r : response) (t : trace) :
  lambda_handler w event = (r, t) ->
  statusCode r = 200%Z ->
  exists (image : string) (size : nat),
    field "imageBase64" (body r) = Some (PyStr image)
    /\ field "size" (body r) = Some (PyInt (Z.of_nat size))
    /\ String.length image = 4 * ((size + 2) / 3)
    /\ Base64.all_ascii image = true.
Proof.
  intros Hrun Hstatus.
  destruct (success_inv w event r t Hrun Hstatus) as (d & pix & png & _ & _ & ->).
  exists (Base64.b64encode png), (length png).
  split; [reflexivity|]. split; [reflexivity|]. split.
  - apply b2a_base64_length.
  - apply Base64Facts.b2a_all_ascii.
Qed.

(** The eight PNG bytes of the sample give twelve characters. *)
Lemma image_text_length_witness :
  exists (image : string) (size : nat),
    field "imageBase64"
      (body (fst (lambda_handler Sample.world
                    (Sample.event_of [("pdfBase64", PyStr "JVBERg==")])))) =
    Some (PyStr image)
    /\ field "size"
         (body (fst (lambda_handler Sample.world
                       (Sample.event_of [("pdfBase64", PyStr "JVBERg==")])))) =
       Some (PyInt (Z.of_nat size))
    /\ String.length image = 4 * ((size + 2) / 3)
    /\ Base64.all_ascii image = true.
Proof.
  exact (image_text_length Sample.world
           (Sample.event_of [("pdfBase64", PyStr "JVBERg==")]) _ _ eq_refl eq_refl).
Defined.





(** * Further properties of the command-line tool *)

(** X17.  With fewer than three arguments after the script name the tool
    exits with status 1 and calls nothing: no file is opened. *)
Theorem usage_exit (w : World) (argv : list string) :
  (length argv < 4)%nat ->
  main w argv = (1%Z, []).
Proof.
  intros Hlen. unfold main.
  destruct argv as [|script [|pdf_path [|page_arg [|output_path rest]]]];
    try reflexivity.
  cbn in Hlen. lia.
Qed.

(** The output path is missing. *)
Lemma usage_exit_witness :
  main Sample.world ["convert_pdf.py"; "in.pdf"; "1"] = (1%Z, []).
Proof.
  apply (usage_exit Sample.world ["convert_pdf.py"; "in.pdf"; "1"]).
  cbn. lia.
Defined.

(** X18.  The tool opens a file only after [int] has read the page number
    and, when there is one, the dpi: the file it opens is its first
    argument, and an argument that is not a number ends the run before any
    file is touched. *)
Theorem opens_after_parsing (w : World) (argv : list string) (path : string) :
  In (FitzOpen path) (snd (main w argv)) ->
  exists (script page_arg output_path : string) (rest : list string) (p dpi : Z),
    argv = script :: path :: page_arg :: output_path :: rest
    /\ int_of_str w page_arg = Ok p
    /\ dpi_argument w rest = Ok dpi
    /\ main w argv = convert_pdf_page_to_image w path p output_path dpi.
Proof.
  unfold main.
  destruct argv as [|script [|pdf_path [|page_arg [|output_path rest]]]];
    try (cbn; intros []).
  destruct (int_of_str w page_arg) as [p|e] eqn:Hp;
    [|cbn; intuition congruence].
  destruct (dpi_argument w rest) as [dpi|e] eqn:Hdpi;
    [|cbn; intuition congruence].
  intros Hin.
  assert (Hpath : path = pdf_path).
  { revert Hin. unfold convert_pdf_page_to_image. rewrite convert_try_eq.
    case_stages; cbn; intuition congruence. }
  subst path. exists script, page_arg, output_path, rest, p, dpi. auto.
Qed.

(** A run on three arguments. *)
Lemma opens_after_parsing_witness :
  exists (script page_arg output_path : string) (rest : list string) (p dpi : Z),
    ["convert_pdf.py"; "in.pdf"; "2"; "out.png"] =
      script :: "in.pdf" :: page_arg :: output_path :: rest
    /\ int_of_str Sample.world page_arg = Ok p
    /\ dpi_argument Sample.world rest = Ok dpi
    /\ main Sample.world ["convert_pdf.py"; "in.pdf"; "2"; "out.png"] =
       convert_pdf_page_to_image Sample.world "in.pdf" p output_path dpi.
Proof.
  apply (opens_after_parsing Sample.world
           ["convert_pdf.py"; "in.pdf"; "2"; "out.png"] "in.pdf").
  vm_compute. tauto.
Defined.


(** X20.  The function writes to no path but [output_path], and only a
    pixmap it has rendered from a page in range of the file it opened. *)
Theorem saves_only_output (w : World) (pdf_path : string) (page_number : Z)
    (output_path : string) (dpi : Z) (path : string) :
  In (PixSave path)
     (snd (convert_pdf_page_to_image w pdf_path page_number output_path dpi)) ->
  path = output_path
  /\ exists (doc : Document) (page : Page) (pix : Pixmap),
       fitz_open w pdf_path = Ok doc
       /\ (1 <= page_number <= Z.of_nat (doc_len doc))%Z
       /\ doc_getitem doc (page_number - 1) = Ok page
       /\ get_pixmap page (mkMatrix (dpi # 72) (dpi # 72)) false = Ok pix.
Proof.
  unfold convert_pdf_page_to_image. rewrite convert_try_eq.
  destruct (fitz_open w pdf_path) as [doc|e] eqn:Hopen; [|cbn; intuition congruence].
  destruct ((page_number <? 1)%Z || (page_number >? Z.of_nat (doc_len doc))%Z)
    eqn:Hrange; [cbn; intuition congruence|].
  apply orb_false_iff in Hrange. destruct Hrange as [Hlt Hgt].
  apply Z.ltb_ge in Hlt. rewrite Z.gtb_ltb in Hgt. apply Z.ltb_ge in Hgt.
  cbv zeta.
  destruct (doc_getitem doc (page_number - 1)) as [page|e] eqn:Hpage;
    [|cbn; intuition congruence].
  destruct (py_truediv_72 (PyInt dpi)) as [zoom|e] eqn:Hzoom;
    [|cbn; intuition congruence].
  destruct (py_truediv_72_ok _ _ Hzoom) as (z & [= <-] & -> & _).
  destruct (get_pixmap page (mkMatrix (dpi # 72) (dpi # 72)) false) as [pix|e] eqn:Hpix;
    [|cbn; intuition congruence].
  intros Hin.
  assert (Hpath : path = output_path).
  { revert Hin. case_stages; cbn; intuition congruence. }
  split; [exact Hpath|].
  exists doc, page, pix. repeat split; auto; lia.
Qed.

(** The run on page 2 writes [out.png]. *)
Lemma saves_only_output_witness :
  "out.png" = "out.png"
  /\ exists (doc : Document) (page : Page) (pix : Pixmap),
       fitz_open Sample.world "in.pdf" = Ok doc
       /\ (1 <= 2 <= Z.of_nat (doc_len doc))%Z
       /\ doc_getitem doc (2 - 1) = Ok page
       /\ get_pixmap page (mkMatrix (150 # 72) (150 # 72)) false = Ok pix.
Proof.
  apply (saves_only_output Sample.world "in.pdf" 2 "out.png" 150 "out.png").
  vm_compute. tauto.
Defined.

(** X21.  The calls of a run of the tool come in the order of the
    pipeline and each kind at most once: open, load the page, render, save,
    close, and the report of a failure last. *)
Theorem cli_calls_in_order (w : World) (argv : list string) :
  StronglySorted lt (map stage_rank (snd (main w argv))).
Proof.
  unfold main.
  destruct argv as [|script [|pdf_path [|page_arg [|output_path rest]]]];
    try (cbn; solve [constructor]).
  destruct (int_of_str w page_arg) as [p|e]; [|cbn; repeat constructor].
  destruct (dpi_argument w rest) as [dpi|e]; [|cbn; repeat constructor].
  unfold convert_pdf_page_to_image. rewrite convert_try_eq.
  case_stages; cbn; repeat constructor.
Qed.
